(** * Sticky sessions of the round-robin load balancer

    A shallow embedding of [roundrobin/stickysessions.go] and the statements
    the specification makes about it.

    Go strings are byte sequences: they are [string] here, one [ascii] per
    byte.  A [uint64] is a [Z] reduced modulo [2^64] wherever Go wraps.
    Nothing here writes through a [*url.URL], so a non-nil pointer is
    represented by the value it points to and a possibly nil one by an
    [option]; the entries of a pool and the backend to stick are non-nil, as
    the balancer that owns them keeps them. *)

From Stdlib Require Import ZArith String Ascii List Bool Lia.
Import ListNotations.

Local Open Scope string_scope.
Local Open Scope Z_scope.

(** ** Package [strings] *)

Module strings.

(** [s[:i]] and [s[i:]] *)
Fixpoint to (i : nat) (s : string) : string :=
  match i, s with
  | S i', String c s' => String c (to i' s')
  | _, _ => EmptyString
  end.

Fixpoint from (i : nat) (s : string) : string :=
  match i, s with
  | S i', String _ s' => from i' s'
  | _, _ => s
  end.

Definition HasPrefix (s p : string) : bool := String.prefix p s.

Definition HasSuffix (s suffix : string) : bool :=
  Nat.leb (String.length suffix) (String.length s) &&
  String.eqb (from (String.length s - String.length suffix) s) suffix.

(** [Contains s substr]: [substr] occurs in [s] at some byte offset. *)
Fixpoint Contains (s substr : string) : bool :=
  HasPrefix s substr ||
  match s with
  | EmptyString => false
  | String _ s' => Contains s' substr
  end.

(** [Index] and [LastIndex] answer [None] where Go answers [-1]. *)
Fixpoint Index (s substr : string) : option nat :=
  if HasPrefix s substr then Some O
  else match s with
       | EmptyString => None
       | String _ s' => option_map S (Index s' substr)
       end.

Fixpoint LastIndex (s substr : string) : option nat :=
  match match s with
        | EmptyString => None
        | String _ s' => option_map S (LastIndex s' substr)
        end with
  | Some i => Some i
  | None => if HasPrefix s substr then Some O else None
  end.

(** [Cut s sep] = [(before, after, found)] around the first [sep]. *)
Definition Cut (s sep : string) : string * string * bool :=
  match Index s sep with
  | Some i => (to i s, from (i + String.length sep) s, true)
  | None => (s, EmptyString, false)
  end.

(** [Count s substr] for a one-byte [substr]. *)
Fixpoint CountByte (s : string) (c : ascii) : nat :=
  match s with
  | EmptyString => O
  | String c' s' => ((if Ascii.eqb c' c then 1 else 0) + CountByte s' c)%nat
  end.

Definition between (lo hi c : ascii) : bool :=
  (N_of_ascii lo <=? N_of_ascii c)%N && (N_of_ascii c <=? N_of_ascii hi)%N.

(** [ToLower] on the ASCII letters, the only ones a scheme can hold. *)
Fixpoint ToLower (s : string) : string :=
  match s with
  | EmptyString => EmptyString
  | String c s' =>
      String (if between "A" "Z" c
              then ascii_of_N (N_of_ascii c + 32) else c) (ToLower s')
  end.

End strings.

(** ** Package [github.com/segmentio/fasthash/fnv1a] *)

Module fnv1a.

Definition uint64 (z : Z) : Z := z mod 2 ^ 64.

Definition offset64 : Z := 14695981039346656037.
Definition prime64 : Z := 1099511628211.
Definition Init64 : Z := offset64.

(** One byte at a time: [h = (h ^ uint64(s[i])) * prime64], wrapping. *)
Fixpoint AddString64 (h : Z) (s : string) : Z :=
  match s with
  | EmptyString => h
  | String c s' =>
      AddString64 (uint64 (Z.lxor h (Z.of_N (N_of_ascii c)) * prime64)) s'
  end.

Definition HashString64 (s : string) : Z := AddString64 Init64 s.

End fnv1a.

(** ** Package [fmt]: the verb [%x] on an unsigned integer *)

Module fmt.

Definition ldigits : string := "0123456789abcdefx".

Definition digit (d : Z) : ascii :=
  match String.get (Z.to_nat d) ldigits with
  | Some c => c
  | None => "0"%char
  end.

(** The base-16 loop of [fmtInteger]: [for u >= 16 { buf[i] = digits[u&0xF];
    u >>= 4 }; buf[i] = digits[u]], filling the buffer from its end.  Each
    round of the loop uses one unit of [fuel]. *)
Fixpoint fmtInteger (fuel : nat) (u : Z) (buf : string) : string :=
  match fuel with
  | O => buf
  | S fuel' =>
      if 16 <=? u
      then fmtInteger fuel' (Z.shiftr u 4) (String (digit (Z.land u 15)) buf)
      else String (digit u) buf
  end.

(** A [uint64] has at most sixteen hexadecimal digits. *)
Definition Sprintf_x (u : Z) : string := fmtInteger 16 u "".

End fmt.

(** ** Go's [error] values

    [switch err] compares an error with the sentinel [http.ErrNoCookie] by
    identity, so the sentinel has a constructor of its own; the remaining
    constructors are the errors the packages below build. *)

Inductive error : Type :=
| ErrNoCookie
| errors_New (msg : string)
| EscapeError (s : string)
| InvalidHostError (s : string)
| fmt_Errorf (format : string) (args : list string)
| url_Error (Op URL : string) (Err : error).

(** ** Package [time] *)

Module time.

(** [time.Time] is carried around and never inspected. *)
Record Time : Type := mkTime { wall : Z; ext : Z; loc : option string }.

Definition zero : Time := mkTime 0 0 None.

End time.

(** ** Package [net/url]: the data and the two operations the code calls *)

Module url.

Record Userinfo : Type := mkUserinfo {
  username : string;
  password : string;
  passwordSet : bool
}.

Record URL : Type := mkURL {
  Scheme : string;
  Opaque : string;
  User : option Userinfo;
  Host : string;
  Path : string;
  RawPath : string;
  OmitHost : bool;
  ForceQuery : bool;
  RawQuery : string;
  Fragment : string;
  RawFragment : string
}.

(** [url.URL{}] *)
Definition zero : URL := mkURL "" "" None "" "" "" false false "" "" "".

(** [url.Parse] and the [String] method of a URL belong to Go's library, not to this
    package: the resolver is written against this interface, and [GoURL]
    further down implements it after the library. *)
Class Package : Type := {
  Parse : string -> URL + error;
  URL_String : URL -> string
}.

End url.

(** ** Package [net/http]: cookies, requests and response writers *)

Module http.

(** [type SameSite int] *)
Definition SameSite : Type := Z.
Definition SameSiteDefaultMode : SameSite := 1.
Definition SameSiteLaxMode : SameSite := 2.
Definition SameSiteStrictMode : SameSite := 3.
Definition SameSiteNoneMode : SameSite := 4.

Record Cookie : Type := mkCookie {
  Name : string;
  Value : string;
  Path : string;
  Domain : string;
  Expires : time.Time;
  RawExpires : string;
  MaxAge : Z;
  Secure : bool;
  HttpOnly : bool;
  SameSite_ : SameSite;
  Raw : string;
  Unparsed : list string
}.

(** A request is used through [req.Cookie(name)] only, which answers with a
    cookie ([err == nil]) or with an error. *)
Record Request : Type := mkRequest {
  Request_Cookie : string -> Cookie + error
}.

(** A request by the cookies it carries: its [Cookie] method answers with
    the first one of that name, and with [ErrNoCookie] when there is none or
    the name is empty. *)
Definition RequestWithCookies (cookies : list Cookie) : Request :=
  mkRequest (fun name =>
    if String.eqb name "" then inr ErrNoCookie
    else match find (fun c => String.eqb (Name c) name) cookies with
         | Some c => inl c
         | None => inr ErrNoCookie
         end).

(** A response writer is observed through the cookies handed to
    [http.SetCookie], oldest first.  Serializing them is the library's
    business: each becomes one [Set-Cookie] header line, and one whose name
    is not a valid token is left out. *)
Definition ResponseWriter : Type := list Cookie.

Definition SetCookie (w : ResponseWriter) (cookie : Cookie) : ResponseWriter :=
  (w ++ [cookie])%list.

End http.

(** ** Package [roundrobin]: [stickysessions.go] *)

Module roundrobin.

(** CookieOptions has all the options one would like to set on the affinity
    cookie. *)
Record CookieOptions : Type := mkCookieOptions {
  HTTPOnly : bool;
  Secure : bool;
  Path : string;
  Domain : string;
  Expires : time.Time;
  MaxAge : Z;
  SameSite : http.SameSite
}.

Record StickySession : Type := mkStickySession {
  cookieName : string;
  options : CookieOptions
}.

Definition NewStickySession (cookieName : string) : StickySession :=
  mkStickySession cookieName (mkCookieOptions false false "" "" time.zero 0 0).

Definition NewStickySessionWithOptions (cookieName : string)
    (options : CookieOptions) : StickySession :=
  mkStickySession cookieName options.

Definition hash (input : string) : string :=
  fmt.Sprintf_x (fnv1a.HashString64 input).

Definition getCleanServerURL (serverURL : url.URL) : url.URL :=
  url.mkURL (url.Scheme serverURL) "" None (url.Host serverURL)
            (url.Path serverURL) "" false false "" "" "".

(** Modelled from the spec: how the legacy comparison treats user-info,
    part of [sameURL] below.  The spec has user-info "compared literally",
    has a cookie "with or without a matching user-info component" resolve,
    and has no match "when the user-info differs in both the cookie and a
    candidate"; the package's test table (TestStickySession_getBackendURL,
    rows "With user in haystack but not in needle" and "With user in needle
    but not in haystack") expects a match when one side carries none.  So
    two user-infos are compared, component by component, when both sides
    carry one, and a side without one agrees with anything. *)
Definition sameUserinfo (a b : option url.Userinfo) : bool :=
  match a, b with
  | Some x, Some y =>
      String.eqb (url.username x) (url.username y) &&
      String.eqb (url.password x) (url.password y) &&
      Bool.eqb (url.passwordSet x) (url.passwordSet y)
  | _, _ => true
  end.

(** Modelled from the spec: [sameURL] is called by [getBackendURL] and
    declared in another file of the package, whose source is missing.  In
    the spec's words the legacy branch returns the first candidate "whose
    scheme, host, path, and user-info all structurally equal the parsed
    legacy value"; user-info enters as [sameUserinfo] has it. *)
Definition sameURL (a b : url.URL) : bool :=
  String.eqb (url.Path a) (url.Path b) &&
  String.eqb (url.Host a) (url.Host b) &&
  String.eqb (url.Scheme a) (url.Scheme b) &&
  sameUserinfo (url.User a) (url.User b).

Section Resolver.
Context `{url.Package}.

Definition getBackendURL (s : StickySession) (needle : string)
    (haystack : list url.URL) : option url.URL :=
  if Nat.eqb (length haystack) 0 then None
  else if strings.Contains needle "://" then
    (* Honour old cookies which have URLs instead of hash *)
    match url.Parse needle with
    | inr _ => None
    | inl needleURL =>
        find (fun serverURL => sameURL needleURL serverURL) haystack
    end
  else
    find (fun serverURL =>
            String.eqb needle
              (hash (url.URL_String (getCleanServerURL serverURL))))
         haystack.

(** GetBackend returns the backend URL stored in the sticky cookie, iff the
    backend is still in the valid list of servers. *)
Definition GetBackend (s : StickySession) (req : http.Request)
    (servers : list url.URL) : option url.URL * bool * option error :=
  match http.Request_Cookie req (cookieName s) with
  | inl cookie =>
      let serverURL := getBackendURL s (http.Value cookie) servers in
      (serverURL, match serverURL with Some _ => true | None => false end,
       None)
  | inr ErrNoCookie => (None, false, None)
  | inr err => (None, false, Some err)
  end.

(** StickBackend creates and sets the cookie. *)
Definition StickBackend (s : StickySession) (backend : url.URL)
    (w : http.ResponseWriter) : http.ResponseWriter :=
  let opt := options s in
  let cp := if String.eqb (Path opt) "" then "/" else Path opt in
  let cookie :=
    http.mkCookie
      (cookieName s)
      (hash (url.URL_String (getCleanServerURL backend)))
      cp
      (Domain opt)
      (Expires opt)
      ""
      (MaxAge opt)
      (Secure opt)
      (HTTPOnly opt)
      (SameSite opt)
      ""
      [] in
  http.SetCookie w cookie.

End Resolver.

End roundrobin.

(** ** Go's [net/url] behind the interface

    [Parse] and [String] as the library computes them, function by function;
    [parse] is the library's [parse(rawURL, false)]. *)

Module url_go.

Import url.

Inductive encoding : Type :=
| encodePath
| encodePathSegment
| encodeHost
| encodeZone
| encodeUserPassword
| encodeQueryComponent
| encodeFragment.

Definition mem (c : ascii) (set : string) : bool :=
  existsb (Ascii.eqb c) (list_ascii_of_string set).

Definition isAlnum (c : ascii) : bool :=
  strings.between "a" "z" c || strings.between "A" "Z" c ||
  strings.between "0" "9" c.

Definition hostOrZone (mode : encoding) : bool :=
  match mode with encodeHost | encodeZone => true | _ => false end.

Definition shouldEscape (c : ascii) (mode : encoding) : bool :=
  if isAlnum c then false
  else if hostOrZone mode &&
          (mem c "!$&'()*+,;=:[]<>" || Ascii.eqb c "034") then false
  else if mem c "-_.~" then false
  else if mem c "$&+,/:;=?@" &&
          match mode with
          | encodePath | encodePathSegment | encodeUserPassword
          | encodeQueryComponent | encodeFragment => true
          | _ => false
          end
  then match mode with
       | encodePath => Ascii.eqb c "?"
       | encodePathSegment => mem c "/;,?"
       | encodeUserPassword => mem c "@/?:"
       | encodeQueryComponent => true
       | _ => false
       end
  else match mode with
       | encodeFragment => negb (mem c "!()*")
       | _ => true
       end.

Definition ishex (c : ascii) : bool :=
  strings.between "0" "9" c || strings.between "a" "f" c ||
  strings.between "A" "F" c.

Definition unhex (c : ascii) : N :=
  if strings.between "0" "9" c then N_of_ascii c - 48
  else if strings.between "a" "f" c then N_of_ascii c - 97 + 10
  else if strings.between "A" "F" c then N_of_ascii c - 65 + 10
  else 0.

Definition upperhex : string := "0123456789ABCDEF".

Definition hexat (n : N) : ascii :=
  match String.get (N.to_nat n) upperhex with Some c => c | None => "0" end.

Fixpoint escape (s : string) (mode : encoding) : string :=
  match s with
  | EmptyString => EmptyString
  | String c s' =>
      if shouldEscape c mode then
        match mode with
        | encodeQueryComponent =>
            if Ascii.eqb c " " then String "+" (escape s' mode)
            else String "%" (String (hexat (N_of_ascii c / 16))
                   (String (hexat (N_of_ascii c mod 16)) (escape s' mode)))
        | _ => String "%" (String (hexat (N_of_ascii c / 16))
                 (String (hexat (N_of_ascii c mod 16)) (escape s' mode)))
        end
      else String c (escape s' mode)
  end.

(** The first malformed or forbidden byte, left to right, decides the error;
    otherwise every [%XX] is replaced by its byte. *)
Fixpoint unescape (s : string) (mode : encoding) : string + error :=
  match s with
  | EmptyString => inl EmptyString
  | String c rest =>
      if Ascii.eqb c "%" then
        match rest with
        | String h1 (String h2 rest') =>
            let v := ascii_of_N (unhex h1 * 16 + unhex h2) in
            if negb (ishex h1 && ishex h2) then
              inr (EscapeError (strings.to 3 s))
            else if match mode with encodeHost => true | _ => false end &&
                    (unhex h1 <? 8)%N &&
                    negb (String.eqb (strings.to 3 s) "%25") then
              inr (EscapeError (strings.to 3 s))
            else if match mode with encodeZone => true | _ => false end &&
                    negb (String.eqb (strings.to 3 s) "%25") &&
                    negb (Ascii.eqb v " ") && shouldEscape v encodeHost then
              inr (EscapeError (strings.to 3 s))
            else match unescape rest' mode with
                 | inl t => inl (String v t)
                 | inr e => inr e
                 end
        | _ => inr (EscapeError (strings.to 3 s))
        end
      else if hostOrZone mode && (N_of_ascii c <? 128)%N &&
              negb (Ascii.eqb c "+") && shouldEscape c encodeHost then
        inr (InvalidHostError (String c EmptyString))
      else match unescape rest mode with
           | inl t =>
               inl (String (match mode with
                            | encodeQueryComponent =>
                                if Ascii.eqb c "+" then " "%char else c
                            | _ => c
                            end) t)
           | inr e => inr e
           end
  end.

Definition stringContainsCTLByte (s : string) : bool :=
  existsb (fun b => (N_of_ascii b <? 32)%N || (N_of_ascii b =? 127)%N)
          (list_ascii_of_string s).

Fixpoint getScheme_scan (rawURL : string) (i : nat) (rest : string)
    : string * string + error :=
  match rest with
  | EmptyString => inl (EmptyString, rawURL)
  | String c rest' =>
      if strings.between "a" "z" c || strings.between "A" "Z" c then
        getScheme_scan rawURL (S i) rest'
      else if strings.between "0" "9" c || mem c "+-." then
        if Nat.eqb i 0 then inl (EmptyString, rawURL)
        else getScheme_scan rawURL (S i) rest'
      else if Ascii.eqb c ":" then
        if Nat.eqb i 0 then inr (errors_New "missing protocol scheme")
        else inl (strings.to i rawURL, rest')
      else inl (EmptyString, rawURL)
  end.

Definition getScheme (rawURL : string) : string * string + error :=
  getScheme_scan rawURL 0 rawURL.

Definition validUserinfo (s : string) : bool :=
  forallb (fun r => isAlnum r || mem r "-._:~!$&'()*+,;=%@")
          (list_ascii_of_string s).

Definition validOptionalPort (port : string) : bool :=
  match port with
  | EmptyString => true
  | String c digits =>
      Ascii.eqb c ":" &&
      forallb (strings.between "0" "9") (list_ascii_of_string digits)
  end.

Definition parseHost (host : string) : string + error :=
  let general := unescape host encodeHost in
  if strings.HasPrefix host "[" then
    (* an IP-literal, possibly with a zone and a port *)
    match strings.LastIndex host "]" with
    | None => inr (errors_New "missing ']' in host")
    | Some i =>
        let colonPort := strings.from (i + 1) host in
        if negb (validOptionalPort colonPort) then
          inr (fmt_Errorf "invalid port %q after host" [colonPort])
        else
          match strings.Index (strings.to i host) "%25" with
          | Some zone =>
              match unescape (strings.to zone host) encodeHost with
              | inr e => inr e
              | inl host1 =>
                  match unescape (strings.from zone (strings.to i host))
                                 encodeZone with
                  | inr e => inr e
                  | inl host2 =>
                      match unescape (strings.from i host) encodeHost with
                      | inr e => inr e
                      | inl host3 => inl (host1 ++ host2 ++ host3)
                      end
                  end
              end
          | None => general
          end
    end
  else
    match strings.LastIndex host ":" with
    | Some i =>
        let colonPort := strings.from i host in
        if negb (validOptionalPort colonPort) then
          inr (fmt_Errorf "invalid port %q after host" [colonPort])
        else general
    | None => general
    end.

Definition parseAuthority (authority : string)
    : option Userinfo * string + error :=
  let i := strings.LastIndex authority "@" in
  match parseHost (match i with
                   | None => authority
                   | Some i => strings.from (i + 1) authority
                   end) with
  | inr e => inr e
  | inl host =>
      match i with
      | None => inl (None, host)
      | Some i =>
          let userinfo := strings.to i authority in
          if negb (validUserinfo userinfo) then
            inr (errors_New "net/url: invalid userinfo")
          else if negb (strings.Contains userinfo ":") then
            match unescape userinfo encodeUserPassword with
            | inr e => inr e
            | inl userinfo => inl (Some (mkUserinfo userinfo "" false), host)
            end
          else
            let '(username, password, _) := strings.Cut userinfo ":" in
            match unescape username encodeUserPassword with
            | inr e => inr e
            | inl username =>
                match unescape password encodeUserPassword with
                | inr e => inr e
                | inl password =>
                    inl (Some (mkUserinfo username password true), host)
                end
            end
      end
  end.

(** [setPath] and [setFragment] yield the decoded text and the raw hint. *)
Definition setPath (p : string) : string * string + error :=
  match unescape p encodePath with
  | inr e => inr e
  | inl path =>
      inl (path, if String.eqb p (escape path encodePath) then "" else p)
  end.

Definition setFragment (f : string) : string * string + error :=
  match unescape f encodeFragment with
  | inr e => inr e
  | inl frag =>
      inl (frag, if String.eqb f (escape frag encodeFragment) then "" else f)
  end.

Definition parse (rawURL : string) : URL + error :=
  if stringContainsCTLByte rawURL then
    inr (errors_New "net/url: invalid control character in URL")
  else if String.eqb rawURL "*" then
    inl (mkURL "" "" None "" "*" "" false false "" "" "")
  else
    match getScheme rawURL with
    | inr e => inr e
    | inl (scheme, rest) =>
        let scheme := strings.ToLower scheme in
        let '(rest, forceQuery, rawQuery) :=
          if strings.HasSuffix rest "?" &&
             Nat.eqb (strings.CountByte rest "?") 1
          then (strings.to (String.length rest - 1) rest, true, "")
          else let '(before, after, _) := strings.Cut rest "?" in
               (before, false, after) in
        let rooted := strings.HasPrefix rest "/" in
        if negb rooted && negb (String.eqb scheme "") then
          (* rootless paths are opaque *)
          inl (mkURL scheme rest None "" "" "" false forceQuery rawQuery
                     "" "")
        else if negb rooted &&
                strings.Contains (fst (fst (strings.Cut rest "/"))) ":" then
          inr (errors_New "first path segment in URL cannot contain colon")
        else
          let finish (user : option Userinfo) (host : string)
                     (omitHost : bool) (rest : string) :=
            match setPath rest with
            | inr e => inr e
            | inl (path, rawPath) =>
                inl (mkURL scheme "" user host path rawPath omitHost
                           forceQuery rawQuery "" "")
            end in
          if (negb (String.eqb scheme "") ||
              negb (strings.HasPrefix rest "///")) &&
             strings.HasPrefix rest "//" then
            let authority := strings.from 2 rest in
            let '(authority, rest) :=
              match strings.Index authority "/" with
              | Some i => (strings.to i authority, strings.from i authority)
              | None => (authority, "")
              end in
            match parseAuthority authority with
            | inr e => inr e
            | inl (user, host) => finish user host false rest
            end
          else if negb (String.eqb scheme "") && rooted then
            finish None "" true rest
          else finish None "" false rest
    end.

Definition Parse (rawURL : string) : URL + error :=
  let '(u, frag, _) := strings.Cut rawURL "#" in
  match parse u with
  | inr err => inr (url_Error "parse" u err)
  | inl url =>
      if String.eqb frag "" then inl url
      else match setFragment frag with
           | inr err => inr (url_Error "parse" rawURL err)
           | inl (fragment, rawFragment) =>
               inl (mkURL (Scheme url) (Opaque url) (User url) (Host url)
                          (Path url) (RawPath url) (OmitHost url)
                          (ForceQuery url) (RawQuery url)
                          fragment rawFragment)
           end
  end.

Definition validEncoded (s : string) (mode : encoding) : bool :=
  forallb (fun c => mem c "!$&'()*+,;=:@[]%" || negb (shouldEscape c mode))
          (list_ascii_of_string s).

Definition EscapedPath (u : URL) : string :=
  if negb (String.eqb (RawPath u) "") && validEncoded (RawPath u) encodePath
     && match unescape (RawPath u) encodePath with
        | inl p => String.eqb p (Path u)
        | inr _ => false
        end
  then RawPath u
  else if String.eqb (Path u) "*" then "*"
  else escape (Path u) encodePath.

Definition EscapedFragment (u : URL) : string :=
  if negb (String.eqb (RawFragment u) "") &&
     validEncoded (RawFragment u) encodeFragment
     && match unescape (RawFragment u) encodeFragment with
        | inl f => String.eqb f (Fragment u)
        | inr _ => false
        end
  then RawFragment u
  else escape (Fragment u) encodeFragment.

Definition Userinfo_String (u : Userinfo) : string :=
  escape (username u) encodeUserPassword ++
  (if passwordSet u then ":" ++ escape (password u) encodeUserPassword
   else "").

(** [String] appends to a buffer; each [let buf] below is one of its
    conditional writes, in the library's order. *)
Definition URL_String (u : URL) : string :=
  let buf := if negb (String.eqb (Scheme u) "") then Scheme u ++ ":" else "" in
  let buf :=
    if negb (String.eqb (Opaque u) "") then buf ++ Opaque u
    else
      let hasUser := match User u with Some _ => true | None => false end in
      let buf :=
        if negb (String.eqb (Scheme u) "") || negb (String.eqb (Host u) "")
           || hasUser
        then
          if OmitHost u && String.eqb (Host u) "" && negb hasUser then buf
          else
            let buf :=
              if negb (String.eqb (Host u) "")
                 || negb (String.eqb (Path u) "") || hasUser
              then buf ++ "//" else buf in
            let buf :=
              match User u with
              | Some ui => buf ++ Userinfo_String ui ++ "@"
              | None => buf
              end in
            if negb (String.eqb (Host u) "")
            then buf ++ escape (Host u) encodeHost else buf
        else buf in
      let path := EscapedPath u in
      let buf :=
        if negb (String.eqb path "") && negb (strings.HasPrefix path "/")
           && negb (String.eqb (Host u) "")
        then buf ++ "/" else buf in
      let buf :=
        if String.eqb buf "" &&
           strings.Contains (fst (fst (strings.Cut path "/"))) ":"
        then buf ++ "./" else buf in
      buf ++ path in
  let buf :=
    if ForceQuery u || negb (String.eqb (RawQuery u) "")
    then buf ++ "?" ++ RawQuery u else buf in
  if negb (String.eqb (Fragment u) "")
  then buf ++ "#" ++ EscapedFragment u else buf.

End url_go.

(** The library as an instance of the interface. *)
#[export] Instance GoURL : url.Package := {|
  url.Parse := url_go.Parse;
  url.URL_String := url_go.URL_String
|}.

(** ** Vocabulary of the statements *)

(** The bytes [0-9a-f]. *)
Definition lowerhex (c : ascii) : bool :=
  strings.between "0" "9" c || strings.between "a" "f" c.

Definition all_lowerhex (s : string) : bool :=
  forallb lowerhex (list_ascii_of_string s).

(** The number a string of hexadecimal digits denotes, most significant
    digit first. *)
Fixpoint hexval_from (acc : Z) (s : string) : Z :=
  match s with
  | EmptyString => acc
  | String c s' => hexval_from (acc * 16 + Z.of_N (url_go.unhex c)) s'
  end.

Definition hexval (s : string) : Z := hexval_from 0 s.

(** Scheme, host and path of two addresses agree. *)
Definition same_identity (a b : url.URL) : Prop :=
  url.Scheme a = url.Scheme b /\ url.Host a = url.Host b /\
  url.Path a = url.Path b.

(** Two user-infos agree: they are equal, or one side carries none. *)
Definition userinfo_agrees (a b : option url.Userinfo) : Prop :=
  match a, b with
  | Some x, Some y => x = y
  | _, _ => True
  end.

(** What the legacy branch asks of a candidate: the scheme, host and path
    of the parsed cookie value, and a user-info that agrees with its. *)
Definition legacy_match (needleURL c : url.URL) : Prop :=
  same_identity needleURL c /\
  userinfo_agrees (url.User needleURL) (url.User c).

(** [haystack] splits as [before ++ r :: after] with [r] the first element
    satisfying [P]. *)
Definition first_match {A : Type} (P : A -> Prop) (haystack : list A) (r : A)
    : Prop :=
  exists before after,
    haystack = (before ++ r :: after)%list /\ P r /\
    forall y, In y before -> ~ P y.

(** The token of a backend: [hash(getCleanServerURL(u).String())]. *)
Definition token `{url.Package} (u : url.URL) : string :=
  roundrobin.hash (url.URL_String (roundrobin.getCleanServerURL u)).

Definition Userinfo_eqb (a b : option url.Userinfo) : bool :=
  match a, b with
  | None, None => true
  | Some a, Some b =>
      String.eqb (url.username a) (url.username b) &&
      String.eqb (url.password a) (url.password b) &&
      Bool.eqb (url.passwordSet a) (url.passwordSet b)
  | _, _ => false
  end.

(** The legacy comparison as the spec words it, "scheme, host, path, and
    user-info all structurally equal", to set against [roundrobin.sameURL]. *)
Definition sameURL_spec (a b : url.URL) : bool :=
  String.eqb (url.Scheme a) (url.Scheme b) &&
  String.eqb (url.Host a) (url.Host b) &&
  String.eqb (url.Path a) (url.Path b) &&
  Userinfo_eqb (url.User a) (url.User b).

(** The pool entries and needles of TestStickySession_getBackendURL. *)
Definition backend (scheme host path : string) : url.URL :=
  url.mkURL scheme "" None host path "" false false "" "" "".

Definition backend_with_user (scheme host path user : string) : url.URL :=
  url.mkURL scheme "" (Some (url.mkUserinfo user "" false)) host path ""
            false false "" "" "".

Definition backend_force_query (scheme host path : string) : url.URL :=
  url.mkURL scheme "" None host path "" false true "" "" "".

Definition server_a : url.URL := backend "http" "10.10.10.10" "/".
Definition server_a_tls : url.URL := backend "https" "10.10.10.10" "/".
Definition server_a_foo : url.URL := backend "http" "10.10.10.10" "/foo/bar".
Definition server_a_john : url.URL :=
  backend_with_user "http" "10.10.10.10" "/" "John Doe".
Definition server_a_query : url.URL :=
  backend_force_query "http" "10.10.10.10" "/".
Definition server_b : url.URL := backend "https" "10.10.10.42" "/".

(** The table of TestStickySession_getBackendURL: haystack, needle and
    expected URL, in the order of the test file. *)
Definition getBackendURL_tests
    : list (list url.URL * string * option url.URL) :=
  let h := roundrobin.hash in
  [ ([], "http://10.10.10.10/", None);
    ([server_a], "http://10.10.10.10/", Some server_a);
    ([server_a], "http://10.10.10.42/", None);
    ([server_a_tls], "http://10.10.10.10/", None);
    ([server_a_foo], "http://10.10.10.10/", None);
    ([server_a_john], "http://10.10.10.10/", Some server_a_john);
    ([server_a_john], "http://John%20Doe@10.10.10.10/", Some server_a_john);
    ([server_a], "http://John%20Doe@10.10.10.10/", Some server_a);
    ([server_a; server_b], "http://10.10.10.10/", Some server_a);
    ([server_a; server_b], "http://10.10.10.10/foo/bar", None);
    ([], h "http://10.10.10.10/", None);
    ([server_a], h "http://10.10.10.10/", Some server_a);
    ([server_a], h "http://10.10.10.42/", None);
    ([server_a_tls], h "http://10.10.10.10/", None);
    ([server_a_foo], h "http://10.10.10.10/", None);
    ([server_a_john], h "http://10.10.10.10/", Some server_a_john);
    ([server_a_john], h "http://John%20Doe@10.10.10.10/", None);
    ([server_a], h "http://John%20Doe@10.10.10.10/", None);
    ([server_a; server_b], h "http://10.10.10.10/", Some server_a);
    ([server_a; server_b], h "http://10.10.10.10/foo/bar", None);
    ([server_a_query], h "http://10.10.10.10/", Some server_a_query) ].

(** The session of the tests, a cookie as an old client holds it, the
    cookie of TestBadCookieVal, and requests carrying them. *)
Definition sticky : roundrobin.StickySession :=
  roundrobin.NewStickySession "sticky".

Definition cookie_of (name value : string) : http.Cookie :=
  http.mkCookie name value "" "" time.zero "" 0 false false 0 "" [].

Definition legacy_cookie : http.Cookie :=
  cookie_of "sticky" "http://John%20Doe@10.10.10.10/".

Definition bad_cookie : http.Cookie :=
  cookie_of "sticky"
    "This is a patently invalid url!  You can't parse it!  :-)".

Definition unparsable_cookie : http.Cookie :=
  cookie_of "sticky" "http://[::1".

(** What [getBackendURL] asks of one candidate: in the legacy branch that
    the parsed needle and the candidate are the same URL, nothing when the
    needle does not parse, and otherwise that the needle is the candidate's
    token. *)
Definition candidate_matches `{url.Package} (needle : string)
    (serverURL : url.URL) : bool :=
  if strings.Contains needle "://" then
    match url.Parse needle with
    | inl needleURL => roundrobin.sameURL needleURL serverURL
    | inr _ => false
    end
  else String.eqb needle (token serverURL).

(** The shape of a token: one to sixteen bytes of [0-9a-f], the first of
    which is [0] for the token ["0"] only. *)
Definition canonical_token (needle : string) : bool :=
  all_lowerhex needle &&
  Nat.leb 1 (String.length needle) && Nat.leb (String.length needle) 16 &&
  (negb (strings.HasPrefix needle "0") || String.eqb needle "0").

(** * Properties *)

(** ** Lists and strings *)

Lemma find_first_match {A : Type} (f : A -> bool) (l : list A) (r : A) :
  find f l = Some r <-> first_match (fun x => f x = true) l r.
Proof.
  split.
  - revert r; induction l as [|x l IH]; simpl; intros r Hf; [discriminate|].
    destruct (f x) eqn:Hx.
    + inversion Hf; subst r. exists [], l. simpl. intuition.
    + destruct (IH r Hf) as (l1 & l2 & -> & Hr & Hnone).
      exists (x :: l1), l2. simpl. repeat split; auto.
      intros y [<-|Hy]; [congruence | auto].
  - intros (l1 & l2 & -> & Hr & Hnone).
    induction l1 as [|x l1 IH]; simpl.
    + now rewrite Hr.
    + destruct (f x) eqn:Hx.
      * exfalso. apply (Hnone x); simpl; auto.
      * apply IH. intros y Hy. apply Hnone. simpl; auto.
Qed.

Lemma find_In {A : Type} (f : A -> bool) (l : list A) (r : A) :
  find f l = Some r -> In r l.
Proof. intros Hf. apply find_some in Hf. tauto. Qed.

Lemma find_all_false {A : Type} (f : A -> bool) (l : list A) :
  (forall x, In x l -> f x = false) -> find f l = None.
Proof.
  intros Hall. destruct (find f l) as [r|] eqn:Hf; [|reflexivity].
  apply find_some in Hf. destruct Hf as [Hin Hr].
  rewrite (Hall r Hin) in Hr. discriminate.
Qed.

Lemma append_assoc (s t u : string) :
  ((s ++ t) ++ u = s ++ (t ++ u))%string.
Proof. induction s as [|c s IH]; simpl; [reflexivity | now rewrite IH]. Qed.

(** A string that contains [String c p] contains the byte [c]. *)
Lemma Contains_head_In (c : ascii) (p s : string) :
  strings.Contains s (String c p) = true -> In c (list_ascii_of_string s).
Proof.
  induction s as [|a s IH]; simpl.
  - discriminate.
  - unfold strings.HasPrefix; simpl.
    destruct (ascii_dec c a) as [->|Hne].
    + intros _. now left.
    + simpl. intros Hc. right. now apply IH.
Qed.

(** ** The rendering [%x] *)

Lemma digit_lowerhex (d : Z) : d < 16 -> lowerhex (fmt.digit d) = true.
Proof.
  intros Hd. unfold fmt.digit.
  assert (Hn : (Z.to_nat d < 16)%nat) by lia.
  remember (Z.to_nat d) as n eqn:En. clear En Hd.
  do 16 (destruct n as [|n]; [reflexivity|]). lia.
Qed.

Lemma digit_value (d : Z) :
  0 <= d < 16 -> Z.of_N (url_go.unhex (fmt.digit d)) = d.
Proof.
  intros Hd. unfold fmt.digit.
  assert (Hn : (Z.to_nat d < 16)%nat) by lia.
  rewrite <- (Z2Nat.id d) at 2 by lia.
  remember (Z.to_nat d) as n eqn:En. clear En Hd.
  do 16 (destruct n as [|n]; [reflexivity|]). lia.
Qed.

Lemma digit_nonzero (d : Z) : 0 < d < 16 -> fmt.digit d <> "0"%char.
Proof.
  intros Hd. unfold fmt.digit.
  assert (Hn : (0 < Z.to_nat d < 16)%nat) by lia.
  remember (Z.to_nat d) as n eqn:En. clear En Hd.
  destruct n as [|n]; [lia|].
  do 15 (destruct n as [|n]; [discriminate|]). lia.
Qed.

Lemma land_15 (u : Z) : Z.land u 15 = u mod 16.
Proof. change 15 with (Z.ones 4). now rewrite Z.land_ones by lia. Qed.

Lemma shiftr_4 (u : Z) : Z.shiftr u 4 = u / 16.
Proof. now rewrite Z.shiftr_div_pow2 by lia. Qed.

Lemma fmtInteger_lowerhex (fuel : nat) (u : Z) (buf : string) :
  all_lowerhex buf = true -> all_lowerhex (fmt.fmtInteger fuel u buf) = true.
Proof.
  revert u buf. induction fuel as [|fuel IH]; intros u buf Hbuf; simpl.
  - exact Hbuf.
  - destruct (16 <=? u) eqn:Hu.
    + apply IH. unfold all_lowerhex in *. simpl. rewrite Hbuf, andb_true_r.
      apply digit_lowerhex. rewrite land_15.
      pose proof (Z.mod_pos_bound u 16). lia.
    + unfold all_lowerhex in *. simpl. rewrite Hbuf, andb_true_r.
      apply digit_lowerhex. apply Z.leb_gt in Hu. exact Hu.
Qed.

Lemma fmtInteger_app (fuel : nat) (u : Z) (buf : string) :
  fmt.fmtInteger fuel u buf = (fmt.fmtInteger fuel u "" ++ buf)%string.
Proof.
  revert u buf. induction fuel as [|fuel IH]; intros u buf; simpl.
  - reflexivity.
  - destruct (16 <=? u); [|reflexivity].
    rewrite (IH _ (String _ buf)), (IH _ (String _ "")).
    now rewrite append_assoc.
Qed.

Lemma hexval_from_snoc (acc : Z) (s : string) (c : ascii) :
  hexval_from acc (s ++ String c "") =
  hexval_from acc s * 16 + Z.of_N (url_go.unhex c).
Proof.
  revert acc. induction s as [|a s IH]; intros acc; simpl.
  - reflexivity.
  - apply IH.
Qed.

(** With fuel for every digit, the rendering denotes the number rendered. *)
Lemma fmtInteger_value (fuel : nat) (u : Z) :
  0 <= u < 16 ^ Z.of_nat fuel -> hexval (fmt.fmtInteger fuel u "") = u.
Proof.
  revert u. induction fuel as [|fuel IH]; intros u Hu.
  - simpl in *. unfold hexval. simpl. lia.
  - rewrite Nat2Z.inj_succ, Z.pow_succ_r in Hu by lia.
    simpl. destruct (16 <=? u) eqn:H16.
    + apply Z.leb_le in H16.
      rewrite fmtInteger_app. unfold hexval. rewrite hexval_from_snoc.
      fold (hexval (fmt.fmtInteger fuel (Z.shiftr u 4) "")).
      rewrite shiftr_4, land_15.
      rewrite IH by (split; [apply Z.div_pos | apply Z.div_lt_upper_bound]; lia).
      rewrite digit_value by (apply Z.mod_pos_bound; lia).
      pose proof (Z.div_mod u 16). lia.
    + apply Z.leb_gt in H16. unfold hexval. simpl.
      rewrite digit_value; lia.
Qed.

(** No padding: the leading digit of a non-zero number is not [0]. *)
Lemma fmtInteger_leading (fuel : nat) (u : Z) :
  0 < u < 16 ^ Z.of_nat fuel ->
  exists c rest,
    fmt.fmtInteger fuel u "" = String c rest /\ c <> "0"%char.
Proof.
  revert u. induction fuel as [|fuel IH]; intros u Hu.
  - simpl in Hu. lia.
  - rewrite Nat2Z.inj_succ, Z.pow_succ_r in Hu by lia.
    simpl. destruct (16 <=? u) eqn:H16.
    + apply Z.leb_le in H16. rewrite fmtInteger_app, shiftr_4.
      destruct (IH (u / 16)) as (c & rest & -> & Hc).
      { split; [apply Z.div_str_pos | apply Z.div_lt_upper_bound]; lia. }
      simpl. eauto.
    + apply Z.leb_gt in H16. exists (fmt.digit u), "". split; [reflexivity|].
      apply digit_nonzero. lia.
Qed.

Lemma HashString64_range (s : string) :
  0 <= fnv1a.HashString64 s < 2 ^ 64.
Proof.
  unfold fnv1a.HashString64.
  assert (Hinit : 0 <= fnv1a.Init64 < 2 ^ 64) by (vm_compute; split; congruence).
  revert Hinit. generalize fnv1a.Init64 as h. revert s.
  induction s as [|c s IH]; intros h Hh; simpl.
  - exact Hh.
  - apply IH. unfold fnv1a.uint64. apply Z.mod_pos_bound. lia.
Qed.

Lemma hash_lowerhex (input : string) :
  all_lowerhex (roundrobin.hash input) = true.
Proof. apply fmtInteger_lowerhex. reflexivity. Qed.

Lemma lowerhex_no_delimiter (s : string) :
  all_lowerhex s = true -> strings.Contains s "://" = false.
Proof.
  intros Hs. destruct (strings.Contains s "://") eqn:Hc; [|reflexivity].
  apply Contains_head_In in Hc.
  unfold all_lowerhex in Hs. rewrite forallb_forall in Hs.
  specialize (Hs _ Hc). discriminate.
Qed.

Lemma hash_no_delimiter (input : string) :
  strings.Contains (roundrobin.hash input) "://" = false.
Proof. apply lowerhex_no_delimiter, hash_lowerhex. Qed.

(** ** The resolver, for any implementation of the URL interface *)

Section Properties.
Context {pkg : url.Package}.

Import roundrobin.

Lemma sameUserinfo_agrees (a b : option url.Userinfo) :
  sameUserinfo a b = true <-> userinfo_agrees a b.
Proof.
  destruct a as [[ua pa sa]|], b as [[ub pb sb]|]; simpl; try tauto.
  rewrite !andb_true_iff, !String.eqb_eq, Bool.eqb_true_iff. split.
  - intros [[-> ->] ->]. reflexivity.
  - intros Heq. inversion Heq. tauto.
Qed.

Lemma sameURL_legacy_match (a b : url.URL) :
  sameURL a b = true <-> legacy_match a b.
Proof.
  unfold sameURL, legacy_match, same_identity.
  rewrite !andb_true_iff, !String.eqb_eq, sameUserinfo_agrees. tauto.
Qed.

Lemma sameURL_sound (a b : url.URL) :
  sameURL a b = true -> same_identity a b.
Proof. intros Hs. apply sameURL_legacy_match in Hs. exact (proj1 Hs). Qed.

Lemma sameURL_without_userinfo (a b : url.URL) :
  url.User a = None -> (sameURL a b = true <-> same_identity a b).
Proof.
  intros Hu. rewrite sameURL_legacy_match. unfold legacy_match.
  rewrite Hu. simpl. tauto.
Qed.

Lemma getBackendURL_hashed (s : StickySession) (needle : string)
    (haystack : list url.URL) :
  strings.Contains needle "://" = false ->
  getBackendURL s needle haystack =
  find (fun serverURL => String.eqb needle (token serverURL)) haystack.
Proof.
  intros Hc. unfold getBackendURL. rewrite Hc.
  destruct haystack; reflexivity.
Qed.

Lemma getBackendURL_legacy (s : StickySession) (needle : string)
    (needleURL : url.URL) (haystack : list url.URL) :
  strings.Contains needle "://" = true ->
  url.Parse needle = inl needleURL ->
  getBackendURL s needle haystack = find (sameURL needleURL) haystack.
Proof.
  intros Hc Hp. unfold getBackendURL. rewrite Hc, Hp.
  destruct haystack; reflexivity.
Qed.

Lemma getBackendURL_unparsable (s : StickySession) (needle : string)
    (err : error) (haystack : list url.URL) :
  strings.Contains needle "://" = true ->
  url.Parse needle = inr err ->
  getBackendURL s needle haystack = None.
Proof.
  intros Hc Hp. unfold getBackendURL. rewrite Hc, Hp.
  destruct haystack; reflexivity.
Qed.

Lemma getBackendURL_In (s : StickySession) (needle : string)
    (haystack : list url.URL) (r : url.URL) :
  getBackendURL s needle haystack = Some r -> In r haystack.
Proof.
  unfold getBackendURL.
  destruct (Nat.eqb (length haystack) 0); [discriminate|].
  destruct (strings.Contains needle "://").
  - destruct (url.Parse needle); [apply find_In | discriminate].
  - apply find_In.
Qed.

Lemma StickBackend_appends (s : StickySession) (backend : url.URL)
    (w : http.ResponseWriter) :
  StickBackend s backend w =
  (w ++ [http.mkCookie (cookieName s) (token backend)
           (if String.eqb (Path (options s)) "" then "/"
            else Path (options s))
           (Domain (options s)) (Expires (options s)) ""
           (MaxAge (options s)) (Secure (options s)) (HTTPOnly (options s))
           (SameSite (options s)) "" []])%list.
Proof. reflexivity. Qed.

Lemma StickBackend_value (s : StickySession) (backend : url.URL)
    (w : http.ResponseWriter) (c : http.Cookie) :
  StickBackend s backend w = (w ++ [c])%list ->
  http.Value c = token backend /\ http.Name c = cookieName s.
Proof.
  rewrite StickBackend_appends. intros Heq.
  apply app_inv_head in Heq. inversion Heq; subst c. split; reflexivity.
Qed.

(** C1, as amended: in the legacy raw-address branch (the cookie value
    contains "://" and parses), the resolver returns the first candidate of
    the pool, in pool order, whose scheme, host and path equal those of the
    parsed cookie value and whose user-info, when the cookie value and the
    candidate both carry one, equals the cookie's; it returns no candidate
    exactly when the pool has none such.  User-info that only one of the two
    carries does not keep a candidate from being returned. *)
Theorem legacy_branch_first_match (s : StickySession)
    (needle : string) (needleURL : url.URL) (haystack : list url.URL) :
  strings.Contains needle "://" = true ->
  url.Parse needle = inl needleURL ->
  (forall r, getBackendURL s needle haystack = Some r <->
             first_match (legacy_match needleURL) haystack r) /\
  (getBackendURL s needle haystack = None <->
   forall c, In c haystack -> ~ legacy_match needleURL c).
Proof.
  intros Hc Hp. rewrite (getBackendURL_legacy s _ _ _ Hc Hp). split.
  - intros r. rewrite find_first_match. unfold first_match.
    split; intros (l1 & l2 & Hl & Hr & Hnone); exists l1, l2;
      (split; [exact Hl|]); split.
    + now apply sameURL_legacy_match.
    + intros y Hy Hs. apply (Hnone y Hy). now apply sameURL_legacy_match.
    + now apply sameURL_legacy_match.
    + intros y Hy Hs. apply (Hnone y Hy). now apply sameURL_legacy_match.
  - split.
    + intros Hnone c Hin Hs.
      apply sameURL_legacy_match in Hs.
      pose proof (find_none _ _ Hnone c Hin) as Hf. congruence.
    + intros Hall. apply find_all_false. intros c Hin.
      destruct (sameURL needleURL c) eqn:Hs; [|reflexivity].
      exfalso. apply (Hall c Hin). now apply sameURL_legacy_match.
Qed.

(** C2: round trip.  For every backend A and pool [A, B], the cookie that
    StickBackend(A, resp) writes has a value v such that GetBackend, on any
    request carrying a cookie of the configured name with value v, answers
    (A, matched = true, no error). *)
Theorem stick_get_round_trip (s : StickySession) (A B : url.URL)
    (w : http.ResponseWriter) (written carried : http.Cookie)
    (req : http.Request) :
  StickBackend s A w = (w ++ [written])%list ->
  http.Request_Cookie req (cookieName s) = inl carried ->
  http.Value carried = http.Value written ->
  GetBackend s req [A; B] = (Some A, true, None).
Proof.
  intros Hw Hreq Hv.
  apply StickBackend_value in Hw. destruct Hw as [Hval _].
  unfold GetBackend. rewrite Hreq, Hv, Hval.
  rewrite getBackendURL_hashed by (unfold token; apply hash_no_delimiter).
  simpl. now rewrite String.eqb_refl.
Qed.

(** C3: reading the cookie.  When the named cookie is absent GetBackend
    answers (no backend, false, no error); when the lookup fails with any
    other error it answers (no backend, false, that error); and a non-nil
    error comes out of GetBackend in that case only. *)
Theorem GetBackend_cookie_read (s : StickySession) (req : http.Request)
    (servers : list url.URL) :
  (http.Request_Cookie req (cookieName s) = inr ErrNoCookie ->
   GetBackend s req servers = (None, false, None)) /\
  (forall err, http.Request_Cookie req (cookieName s) = inr err ->
               err <> ErrNoCookie ->
               GetBackend s req servers = (None, false, Some err)) /\
  (forall err, snd (GetBackend s req servers) = Some err ->
               http.Request_Cookie req (cookieName s) = inr err /\
               err <> ErrNoCookie) /\
  (forall cookies,
     (forall c, In c cookies -> http.Name c <> cookieName s) ->
     GetBackend s (http.RequestWithCookies cookies) servers =
     (None, false, None)).
Proof.
  unfold GetBackend. split; [|split; [|split]]; [| |split|].
  - intros ->. reflexivity.
  - intros err -> Hne. destruct err; congruence.
  - destruct (http.Request_Cookie req (cookieName s)) as [c|e];
      simpl in *; [discriminate|].
    destruct e; simpl in *; congruence.
  - destruct (http.Request_Cookie req (cookieName s)) as [c|e];
      simpl in *; [discriminate|].
    destruct e; simpl in *; congruence.
  - intros cookies Hnone. simpl.
    destruct (String.eqb (cookieName s) ""); [reflexivity|].
    rewrite find_all_false; [reflexivity|].
    intros c Hin. apply String.eqb_neq. now apply Hnone.
Qed.

(** C4: a present cookie never yields an error, and whenever no candidate
    matches its value the answer is (no backend, false, no error), the same
    as for an absent cookie: on an empty pool, on a legacy value that does
    not parse, on a legacy value no candidate equals, and on a token no
    candidate of the pool hashes to (its backend was removed). *)
Theorem GetBackend_no_match (s : StickySession) (req : http.Request)
    (cookie : http.Cookie) (servers : list url.URL) :
  http.Request_Cookie req (cookieName s) = inl cookie ->
  snd (GetBackend s req servers) = None /\
  (servers = [] -> GetBackend s req servers = (None, false, None)) /\
  (strings.Contains (http.Value cookie) "://" = true ->
   forall err, url.Parse (http.Value cookie) = inr err ->
   GetBackend s req servers = (None, false, None) /\
   forall absent, http.Request_Cookie absent (cookieName s) = inr ErrNoCookie ->
                  GetBackend s req servers = GetBackend s absent servers) /\
  (strings.Contains (http.Value cookie) "://" = true ->
   forall needleURL, url.Parse (http.Value cookie) = inl needleURL ->
   (forall c, In c servers -> sameURL needleURL c = false) ->
   GetBackend s req servers = (None, false, None)) /\
  (strings.Contains (http.Value cookie) "://" = false ->
   (forall c, In c servers -> token c <> http.Value cookie) ->
   GetBackend s req servers = (None, false, None)).
Proof.
  intros Hreq. unfold GetBackend. rewrite Hreq.
  split; [reflexivity|]. split; [intros ->; reflexivity|].
  split; [|split].
  - intros Hc err Hp. rewrite (getBackendURL_unparsable s _ err) by assumption.
    split; [reflexivity|].
    intros absent Habsent. now rewrite Habsent.
  - intros Hc needleURL Hp Hall.
    rewrite (getBackendURL_legacy s _ needleURL) by assumption.
    now rewrite find_all_false.
  - intros Hc Hall. rewrite getBackendURL_hashed by assumption.
    rewrite find_all_false; [reflexivity|].
    intros c Hin. apply String.eqb_neq. intros Heq.
    apply (Hall c Hin). now symmetry.
Qed.

(** C5: credential independence.  For every scheme, host and path (and
    whatever the other components are), the token of the address carrying a
    user-info equals the token of the same address without one. *)
Theorem token_credential_independent (scheme opaque host path rawPath : string)
    (omitHost forceQuery : bool) (rawQuery fragment rawFragment : string)
    (user : url.Userinfo) :
  hash (url.URL_String (getCleanServerURL
          (url.mkURL scheme opaque (Some user) host path rawPath omitHost
                     forceQuery rawQuery fragment rawFragment))) =
  hash (url.URL_String (getCleanServerURL
          (url.mkURL scheme opaque None host path rawPath omitHost
                     forceQuery rawQuery fragment rawFragment))).
Proof. reflexivity. Qed.

(** C6: normalization copies exactly the scheme, the host and the path of
    an address and leaves every other component (user-info, query, fragment,
    opaque part, raw path and fragment, flags) at its zero value; hence two
    addresses with the same scheme, host and path have the same identity
    string and the same token. *)
Theorem getCleanServerURL_identity (u : url.URL) :
  getCleanServerURL u =
    url.mkURL (url.Scheme u) "" None (url.Host u) (url.Path u) ""
              false false "" "" "" /\
  url.User (getCleanServerURL u) = None /\
  url.RawQuery (getCleanServerURL u) = "" /\
  url.ForceQuery (getCleanServerURL u) = false /\
  url.Fragment (getCleanServerURL u) = "" /\
  forall u', same_identity u u' ->
    getCleanServerURL u = getCleanServerURL u' /\
    url.URL_String (getCleanServerURL u) =
      url.URL_String (getCleanServerURL u') /\
    token u = token u'.
Proof.
  do 5 (split; [reflexivity|]).
  intros u' (Hs & Hh & Hp). unfold token, getCleanServerURL.
  rewrite Hs, Hh, Hp. repeat split.
Qed.

(** C7: for every backend and every CookieOptions, StickBackend hands
    exactly one cookie to the response: its name is the configured name, its
    value digest(normalize(backend)), its Path "/" when the configured Path
    is empty and the configured Path otherwise, and Domain, Expires, MaxAge,
    Secure, HTTPOnly and SameSite are those of the options. *)
Theorem StickBackend_cookie (name : string) (opt : CookieOptions)
    (backend : url.URL) (w : http.ResponseWriter) :
  let s := NewStickySessionWithOptions name opt in
  exists c,
    StickBackend s backend w = (w ++ [c])%list /\
    http.Name c = name /\
    http.Value c = hash (url.URL_String (getCleanServerURL backend)) /\
    (Path opt = "" -> http.Path c = "/") /\
    (Path opt <> "" -> http.Path c = Path opt) /\
    http.Domain c = Domain opt /\
    http.Expires c = Expires opt /\
    http.MaxAge c = MaxAge opt /\
    http.Secure c = Secure opt /\
    http.HttpOnly c = HTTPOnly opt /\
    http.SameSite_ c = SameSite opt /\
    http.RawExpires c = "" /\ http.Raw c = "" /\ http.Unparsed c = [].
Proof.
  intros s. eexists. split; [apply StickBackend_appends|]. simpl.
  repeat split.
  - intros ->. reflexivity.
  - intros Hne. apply String.eqb_neq in Hne. now rewrite Hne.
Qed.

(** C8: the boolean GetBackend returns says whether it returns a backend:
    the result is (nil, false) or (a backend, true), never (a backend,
    false) nor (nil, true). *)
Theorem GetBackend_matched_iff_backend (s : StickySession)
    (req : http.Request) (servers : list url.URL) :
  (fst (fst (GetBackend s req servers)) = None /\
   snd (fst (GetBackend s req servers)) = false) \/
  (exists u, fst (fst (GetBackend s req servers)) = Some u /\
             snd (fst (GetBackend s req servers)) = true).
Proof.
  unfold GetBackend.
  destruct (http.Request_Cookie req (cookieName s)) as [c|e].
  - simpl. destruct (getBackendURL s (http.Value c) servers) as [u|].
    + right. exists u. split; reflexivity.
    + left. split; reflexivity.
  - left. destruct e; split; reflexivity.
Qed.

(** C9: a backend returned by GetBackend is an element of the supplied
    pool, with every component as the pool holds it; it is the element at
    some index of the pool, not the address parsed from the cookie and not
    the normalized copy that is hashed. *)
Theorem GetBackend_returns_pool_element (s : StickySession)
    (req : http.Request) (servers : list url.URL) (u : url.URL) :
  fst (fst (GetBackend s req servers)) = Some u ->
  In u servers /\ exists i, nth_error servers i = Some u.
Proof.
  unfold GetBackend.
  destruct (http.Request_Cookie req (cookieName s)) as [c|e].
  - simpl. intros Hu. apply getBackendURL_In in Hu.
    split; [exact Hu | now apply In_nth_error].
  - destruct e; discriminate.
Qed.

(** C10: for every input the token produced by hash consists of the bytes
    0-9a-f only; it is the hexadecimal rendering, without padding, of the
    64-bit FNV-1a value of the input; it never contains "://"; so the value
    of every cookie StickBackend writes takes the hashed-token branch of the
    resolver, never the legacy one. *)
Theorem hash_is_hashed_token (input : string) :
  all_lowerhex (hash input) = true /\
  0 <= fnv1a.HashString64 input < 2 ^ 64 /\
  hexval (hash input) = fnv1a.HashString64 input /\
  (fnv1a.HashString64 input <> 0 ->
   exists c rest, hash input = String c rest /\ c <> "0"%char) /\
  strings.Contains (hash input) "://" = false /\
  forall s backend w haystack,
  exists c,
    StickBackend s backend w = (w ++ [c])%list /\
    strings.Contains (http.Value c) "://" = false /\
    getBackendURL s (http.Value c) haystack =
    find (fun serverURL => String.eqb (http.Value c) (token serverURL))
         haystack.
Proof.
  pose proof (HashString64_range input) as Hr.
  split; [apply hash_lowerhex|]. split; [exact Hr|].
  split; [apply fmtInteger_value; simpl; lia|].
  split; [intros Hnz; apply fmtInteger_leading; simpl; lia|].
  split; [apply hash_no_delimiter|].
  intros s backend w haystack. eexists.
  split; [apply StickBackend_appends|]. simpl.
  split; [apply hash_no_delimiter|].
  apply getBackendURL_hashed, hash_no_delimiter.
Qed.

End Properties.

(** ** The resolver on Go's [net/url] *)

(** Every row of TestStickySession_getBackendURL evaluates to the URL the
    test expects. *)
Lemma TestStickySession_getBackendURL :
  map (fun t => roundrobin.getBackendURL sticky (snd (fst t)) (fst (fst t)))
      getBackendURL_tests =
  map snd getBackendURL_tests.
Proof. vm_compute. reflexivity. Qed.

(** With user-info compared as the spec words it, the two rows whose needle
    and candidate differ in user-info only would find nothing, against the
    test's expectation. *)
Lemma sameURL_spec_against_the_tests :
  url.Parse "http://10.10.10.10/" = inl server_a /\
  sameURL_spec server_a server_a_john = false /\
  roundrobin.sameURL server_a server_a_john = true /\
  url.Parse "http://John%20Doe@10.10.10.10/" = inl server_a_john /\
  sameURL_spec server_a_john server_a = false /\
  roundrobin.sameURL server_a_john server_a = true.
Proof. repeat split; vm_compute; reflexivity. Qed.

(** C1, as the claim states it, fails on the row "With user in needle but
    not in haystack": the cookie value parses to an address with user-info
    John Doe, the only candidate has the same scheme, host and path and no
    user-info, and that candidate is returned. *)
Lemma legacy_branch_userinfo_counterexample :
  strings.Contains "http://John%20Doe@10.10.10.10/" "://" = true /\
  url.Parse "http://John%20Doe@10.10.10.10/" = inl server_a_john /\
  same_identity server_a_john server_a /\
  url.User server_a <> url.User server_a_john /\
  roundrobin.getBackendURL sticky "http://John%20Doe@10.10.10.10/"
    [server_a] = Some server_a.
Proof.
  split; [reflexivity|]. split; [vm_compute; reflexivity|].
  split; [repeat split|]. split; [discriminate|].
  vm_compute. reflexivity.
Qed.

(** The addresses of the spec's example, parsed by the library, have one
    token. *)
Example credential_independence_parsed :
  exists with_user without_user,
    url.Parse "http://user@host/path" = inl with_user /\
    url.Parse "http://host/path" = inl without_user /\
    url.User with_user = Some (url.mkUserinfo "user" "" false) /\
    url.User without_user = None /\
    token with_user = token without_user /\
    token with_user = roundrobin.hash "http://host/path".
Proof.
  do 2 eexists. split; [vm_compute; reflexivity|].
  split; [vm_compute; reflexivity|]. repeat split.
Qed.

(** With a user-info on both sides the comparison is made: a cookie for
    John Doe does not resolve to the candidate of another user, and does to
    his own. *)
Example legacy_branch_two_users :
  roundrobin.getBackendURL sticky "http://John%20Doe@10.10.10.10/"
    [backend_with_user "http" "10.10.10.10" "/" "Jane"] = None /\
  roundrobin.getBackendURL sticky "http://John%20Doe@10.10.10.10/"
    [backend_with_user "http" "10.10.10.10" "/" "Jane"; server_a_john] =
  Some server_a_john.
Proof. split; vm_compute; reflexivity. Qed.

Lemma legacy_branch_first_match_witness :
  strings.Contains "http://John%20Doe@10.10.10.10/" "://" = true /\
  url.Parse "http://John%20Doe@10.10.10.10/" = inl server_a_john /\
  (forall r,
     roundrobin.getBackendURL sticky "http://John%20Doe@10.10.10.10/"
       [server_b; backend_with_user "http" "10.10.10.10" "/" "Jane";
        server_a] = Some r <->
     first_match (legacy_match server_a_john)
       [server_b; backend_with_user "http" "10.10.10.10" "/" "Jane";
        server_a] r).
Proof.
  split; [reflexivity|]. split; [vm_compute; reflexivity|].
  apply (legacy_branch_first_match (pkg := GoURL) sticky
           "http://John%20Doe@10.10.10.10/" server_a_john);
    [reflexivity | vm_compute; reflexivity].
Defined.

Lemma stick_get_round_trip_witness :
  roundrobin.StickBackend sticky server_a [] =
    ([] ++ [http.mkCookie "sticky" "8130f1b82fc2d194" "/" "" time.zero ""
              0 false false 0 "" []])%list /\
  http.Request_Cookie
    (http.RequestWithCookies (roundrobin.StickBackend sticky server_a []))
    "sticky" =
    inl (http.mkCookie "sticky" "8130f1b82fc2d194" "/" "" time.zero ""
           0 false false 0 "" []) /\
  roundrobin.GetBackend sticky
    (http.RequestWithCookies (roundrobin.StickBackend sticky server_a []))
    [server_a; server_b] = (Some server_a, true, None).
Proof.
  split; [vm_compute; reflexivity|]. split; [vm_compute; reflexivity|].
  apply (stick_get_round_trip (pkg := GoURL) sticky server_a server_b []
           (http.mkCookie "sticky" "8130f1b82fc2d194" "/" "" time.zero ""
              0 false false 0 "" [])
           (http.mkCookie "sticky" "8130f1b82fc2d194" "/" "" time.zero ""
              0 false false 0 "" []));
    [vm_compute; reflexivity | vm_compute; reflexivity | reflexivity].
Defined.

Lemma GetBackend_no_match_witness :
  http.Request_Cookie (http.RequestWithCookies [unparsable_cookie]) "sticky" =
    inl unparsable_cookie /\
  snd (roundrobin.GetBackend sticky (http.RequestWithCookies [unparsable_cookie])
         [server_a]) = None /\
  roundrobin.GetBackend sticky (http.RequestWithCookies [unparsable_cookie])
    [server_a] = (None, false, None).
Proof.
  split; [reflexivity|].
  destruct (GetBackend_no_match (pkg := GoURL) sticky
              (http.RequestWithCookies [unparsable_cookie]) unparsable_cookie
              [server_a] eq_refl) as (Hnoerr & _ & Hparse & _).
  split; [exact Hnoerr|].
  exact (proj1 (Hparse eq_refl _ eq_refl)).
Defined.

Lemma GetBackend_returns_pool_element_witness :
  fst (fst (roundrobin.GetBackend sticky (http.RequestWithCookies [legacy_cookie])
              [server_b; server_a])) = Some server_a /\
  In server_a [server_b; server_a] /\
  exists i, nth_error [server_b; server_a] i = Some server_a.
Proof.
  split; [vm_compute; reflexivity|].
  apply (GetBackend_returns_pool_element (pkg := GoURL) sticky
           (http.RequestWithCookies [legacy_cookie]) [server_b; server_a] server_a).
  vm_compute. reflexivity.
Defined.

(** What comes back is the pool's element: with its user-info where the
    cookie has none, without one where the cookie has one, and with the
    components normalization drops. *)
Example returned_backend_is_the_pool_element :
  roundrobin.getBackendURL sticky "http://10.10.10.10/" [server_a_john] =
    Some server_a_john /\
  url.Parse "http://10.10.10.10/" = inl server_a /\
  server_a <> server_a_john /\
  roundrobin.getBackendURL sticky (roundrobin.hash "http://10.10.10.10/")
    [server_a_query] = Some server_a_query /\
  roundrobin.getCleanServerURL server_a_query <> server_a_query.
Proof. repeat split; try (vm_compute; reflexivity); discriminate. Qed.

(** The cookie of TestBadCookieVal has no "://": it is read as a token, no
    backend hashes to it, and the answer is that of an absent cookie. *)
Example TestBadCookieVal_no_affinity :
  roundrobin.GetBackend sticky (http.RequestWithCookies [bad_cookie]) [server_a] =
    (None, false, None) /\
  roundrobin.GetBackend sticky (http.RequestWithCookies []) [server_a] =
    (None, false, None).
Proof. split; vm_compute; reflexivity. Qed.

(** ** Further properties of the rendering and of [hash] *)

Lemma fmtInteger_length_lower (fuel : nat) (u : Z) (buf : string) :
  (String.length buf <= String.length (fmt.fmtInteger fuel u buf))%nat.
Proof.
  revert u buf. induction fuel as [|fuel IH]; intros u buf; simpl.
  - lia.
  - destruct (16 <=? u).
    + specialize (IH (Z.shiftr u 4) (String (fmt.digit (Z.land u 15)) buf)).
      simpl in IH. lia.
    + simpl. lia.
Qed.

Lemma fmtInteger_length_upper (fuel : nat) (u : Z) (buf : string) :
  (String.length (fmt.fmtInteger fuel u buf) <= String.length buf + fuel)%nat.
Proof.
  revert u buf. induction fuel as [|fuel IH]; intros u buf; simpl.
  - lia.
  - destruct (16 <=? u).
    + specialize (IH (Z.shiftr u 4) (String (fmt.digit (Z.land u 15)) buf)).
      simpl in IH. lia.
    + simpl. lia.
Qed.

Lemma fmtInteger_length (fuel : nat) (u : Z) (buf : string) :
  (String.length buf + 1
     <= String.length (fmt.fmtInteger (S fuel) u buf)
     <= String.length buf + S fuel)%nat.
Proof.
  split; [|apply fmtInteger_length_upper].
  simpl. destruct (16 <=? u).
  - pose proof (fmtInteger_length_lower fuel (Z.shiftr u 4)
                  (String (fmt.digit (Z.land u 15)) buf)) as Hl.
    simpl in Hl. lia.
  - simpl. lia.
Qed.

Lemma hash_length_bounds (input : string) :
  (1 <= String.length (roundrobin.hash input) <= 16)%nat.
Proof.
  unfold roundrobin.hash, fmt.Sprintf_x.
  pose proof (fmtInteger_length 15 (fnv1a.HashString64 input) "") as Hl.
  change (String.length "") with 0%nat in Hl. lia.
Qed.

(** X9: two inputs have the same token exactly when their 64-bit FNV-1a
    values are equal: comparing tokens as strings, as the resolver does,
    compares the hash values. *)
Theorem hash_eq_iff (a b : string) :
  roundrobin.hash a = roundrobin.hash b <->
  fnv1a.HashString64 a = fnv1a.HashString64 b.
Proof.
  split.
  - intros Heq. apply (f_equal hexval) in Heq.
    unfold roundrobin.hash, fmt.Sprintf_x in Heq.
    pose proof (HashString64_range a) as Ha.
    pose proof (HashString64_range b) as Hb.
    rewrite !fmtInteger_value in Heq by (simpl; lia). exact Heq.
  - intros Heq. unfold roundrobin.hash. now rewrite Heq.
Qed.

Lemma hash_canonical (input : string) :
  canonical_token (roundrobin.hash input) = true.
Proof.
  unfold canonical_token.
  pose proof (hash_length_bounds input) as [Hlo Hhi].
  apply Nat.leb_le in Hlo. apply Nat.leb_le in Hhi.
  rewrite hash_lowerhex, Hlo, Hhi. cbn [andb].
  destruct (Z.eq_dec (fnv1a.HashString64 input) 0) as [Hz|Hnz].
  - unfold roundrobin.hash. rewrite Hz. reflexivity.
  - pose proof (HashString64_range input) as Hr.
    destruct (fmtInteger_leading 16 (fnv1a.HashString64 input))
      as (c & rest & Heq & Hc); [simpl; lia|].
    unfold roundrobin.hash, fmt.Sprintf_x. rewrite Heq.
    unfold strings.HasPrefix. cbn [String.prefix].
    destruct (ascii_dec "0" c) as [<-|_]; [congruence | reflexivity].
Qed.

(** X8: a token is never empty and never longer than sixteen bytes, and it
    has the shape of a token: bytes of 0-9a-f, with a leading 0 only when it
    is "0". *)
Theorem hash_shape (input : string) :
  (1 <= String.length (roundrobin.hash input) <= 16)%nat /\
  canonical_token (roundrobin.hash input) = true.
Proof. split; [apply hash_length_bounds | apply hash_canonical]. Qed.

(** ** Further properties of [find] *)

Lemma find_app_Some {A : Type} (f : A -> bool) (l l' : list A) (r : A) :
  find f l = Some r -> find f (l ++ l')%list = Some r.
Proof.
  induction l as [|x l IH]; simpl; [discriminate|].
  destruct (f x); auto.
Qed.


(** On two lists related element by element, two predicates that agree on
    related elements find nothing in both, or find related elements at the
    same index. *)
Lemma find_Forall2 {A : Type} (R : A -> A -> Prop) (f g : A -> bool)
    (l l' : list A) :
  (forall x y, R x y -> f x = g y) ->
  Forall2 R l l' ->
  (find f l = None /\ find g l' = None) \/
  (exists i r r',
     find f l = Some r /\ find g l' = Some r' /\
     nth_error l i = Some r /\ nth_error l' i = Some r' /\ R r r').
Proof.
  intros Hfg Hall. induction Hall as [|x y l l' Hxy Hall IH]; simpl.
  - left. split; reflexivity.
  - rewrite <- (Hfg x y Hxy). destruct (f x).
    + right. exists O, x, y. repeat split; auto.
    + destruct IH as [IH|(i & r & r' & H1 & H2 & H3 & H4 & H5)];
        [left; exact IH|].
      right. exists (S i), r, r'. repeat split; auto.
Qed.

(** ** Further properties of the resolver *)

Section Resolution.
Context {pkg : url.Package}.

Import roundrobin.

Lemma getBackendURL_find (s : StickySession) (needle : string)
    (haystack : list url.URL) :
  getBackendURL s needle haystack =
  find (candidate_matches needle) haystack.
Proof.
  unfold getBackendURL, candidate_matches.
  destruct haystack as [|x l]; [reflexivity|].
  change (Nat.eqb (length (x :: l)) 0) with false. cbv iota.
  destruct (strings.Contains needle "://"); [|reflexivity].
  destruct (url.Parse needle) as [n|e]; [reflexivity|].
  symmetry. apply find_all_false. reflexivity.
Qed.

Lemma GetBackend_present (s : StickySession) (req : http.Request)
    (cookie : http.Cookie) (servers : list url.URL) :
  http.Request_Cookie req (cookieName s) = inl cookie ->
  GetBackend s req servers =
  (getBackendURL s (http.Value cookie) servers,
   match getBackendURL s (http.Value cookie) servers with
   | Some _ => true
   | None => false
   end, None).
Proof. intros Hreq. unfold GetBackend. now rewrite Hreq. Qed.

Lemma token_identity (a b : url.URL) :
  same_identity a b -> token a = token b.
Proof.
  intros (Hs & Hh & Hp). unfold token, getCleanServerURL.
  now rewrite Hs, Hh, Hp.
Qed.

(** X1: for a cookie value without "://", the resolver returns the first
    candidate of the pool, in pool order, whose token equals the value, and
    nothing exactly when no candidate of the pool has that token. *)
Theorem hashed_branch_first_token_match (s : StickySession)
    (needle : string) (haystack : list url.URL) :
  strings.Contains needle "://" = false ->
  (forall r, getBackendURL s needle haystack = Some r <->
             first_match (fun c => token c = needle) haystack r) /\
  (getBackendURL s needle haystack = None <->
   forall c, In c haystack -> token c <> needle).
Proof.
  intros Hc. rewrite (getBackendURL_hashed s _ _ Hc). split.
  - intros r. rewrite find_first_match. unfold first_match.
    split; intros (l1 & l2 & Hl & Hr & Hnone); exists l1, l2;
      (split; [exact Hl|]); split.
    + symmetry. now apply String.eqb_eq.
    + intros y Hy Ht. apply (Hnone y Hy). apply String.eqb_eq. now symmetry.
    + apply String.eqb_eq. now symmetry.
    + intros y Hy Ht. apply (Hnone y Hy). symmetry. now apply String.eqb_eq.
  - split.
    + intros Hnone c Hin Ht.
      pose proof (find_none _ _ Hnone c Hin) as Hf. simpl in Hf.
      apply String.eqb_neq in Hf. congruence.
    + intros Hall. apply find_all_false. intros c Hin.
      apply String.eqb_neq. intros Heq. apply (Hall c Hin). now symmetry.
Qed.

(** X2: a backend GetBackend returns does match the cookie: either the
    value has no "://" and is the backend's token, or it has one, parses,
    and the parsed address has the backend's scheme, host and path. *)
Theorem GetBackend_match_sound (s : StickySession) (req : http.Request)
    (servers : list url.URL) (u : url.URL) :
  fst (fst (GetBackend s req servers)) = Some u ->
  exists cookie,
    http.Request_Cookie req (cookieName s) = inl cookie /\
    ((strings.Contains (http.Value cookie) "://" = false /\
      http.Value cookie = token u) \/
     (strings.Contains (http.Value cookie) "://" = true /\
      exists needleURL,
        url.Parse (http.Value cookie) = inl needleURL /\
        same_identity needleURL u)).
Proof.
  unfold GetBackend.
  destruct (http.Request_Cookie req (cookieName s)) as [c|e];
    [|destruct e; discriminate].
  simpl. intros Hu. exists c. split; [reflexivity|].
  destruct (strings.Contains (http.Value c) "://") eqn:Hc.
  - right. split; [reflexivity|].
    destruct (url.Parse (http.Value c)) as [n|e] eqn:Hp.
    + exists n. split; [reflexivity|].
      rewrite (getBackendURL_legacy s _ n) in Hu by assumption.
      apply find_some in Hu. now apply sameURL_sound.
    + rewrite (getBackendURL_unparsable s _ e) in Hu by assumption.
      discriminate.
  - left. split; [reflexivity|].
    rewrite getBackendURL_hashed in Hu by assumption.
    apply find_some in Hu. destruct Hu as [_ Hu].
    now apply String.eqb_eq in Hu.
Qed.

(** X3: stickiness on any pool.  With the cookie StickBackend wrote for A
    and a pool that holds A, GetBackend answers matched with a backend of
    A's token and no error; it answers A itself when no candidate before A
    in the pool has A's token. *)
Theorem stick_get_any_pool (s : StickySession) (A : url.URL)
    (w : http.ResponseWriter) (written carried : http.Cookie)
    (req : http.Request) (servers : list url.URL) :
  StickBackend s A w = (w ++ [written])%list ->
  http.Request_Cookie req (cookieName s) = inl carried ->
  http.Value carried = http.Value written ->
  In A servers ->
  (exists u, GetBackend s req servers = (Some u, true, None) /\
             In u servers /\ token u = token A) /\
  (forall before after,
     servers = (before ++ A :: after)%list ->
     (forall y, In y before -> token y <> token A) ->
     GetBackend s req servers = (Some A, true, None)).
Proof.
  intros Hw Hreq Hv Hin.
  apply StickBackend_value in Hw. destruct Hw as [Hval _].
  rewrite (GetBackend_present s req carried servers Hreq), Hv, Hval.
  assert (Hc : strings.Contains (token A) "://" = false)
    by (unfold token; apply hash_no_delimiter).
  rewrite (getBackendURL_hashed s _ _ Hc). split.
  - destruct (find (fun c => String.eqb (token A) (token c)) servers)
      as [u|] eqn:Hf.
    + exists u. split; [reflexivity|].
      apply find_some in Hf. destruct Hf as [Hu Ht].
      apply String.eqb_eq in Ht. now split.
    + pose proof (find_none _ _ Hf A Hin) as Hn. simpl in Hn.
      rewrite String.eqb_refl in Hn. discriminate.
  - intros before after -> Hbefore.
    assert (Hf : find (fun c => String.eqb (token A) (token c))
                   (before ++ A :: after)%list = Some A).
    { apply find_first_match. exists before, after.
      split; [reflexivity|]. split; [apply String.eqb_refl|].
      intros y Hy Ht. apply (Hbefore y Hy). apply String.eqb_eq in Ht.
      now symmetry. }
    now rewrite Hf.
Qed.

(** X4: removal and re-stamping.  A request carries the token of a backend
    A that is no longer in the pool, and no backend of the pool B :: rest
    has that token.  Then GetBackend answers no affinity without an error;
    and once StickBackend has stamped B, a request carrying the new cookie
    is answered with B. *)
Theorem removed_backend_then_restick (s : StickySession) (A B : url.URL)
    (rest : list url.URL) (w : http.ResponseWriter)
    (stale written fresh : http.Cookie) (req req' : http.Request) :
  http.Request_Cookie req (cookieName s) = inl stale ->
  http.Value stale = token A ->
  (forall c, In c (B :: rest) -> token c <> token A) ->
  StickBackend s B w = (w ++ [written])%list ->
  http.Request_Cookie req' (cookieName s) = inl fresh ->
  http.Value fresh = http.Value written ->
  GetBackend s req (B :: rest) = (None, false, None) /\
  GetBackend s req' (B :: rest) = (Some B, true, None).
Proof.
  intros Hreq Hstale Hgone Hw Hreq' Hfresh.
  apply StickBackend_value in Hw. destruct Hw as [Hval _].
  rewrite (GetBackend_present s req stale _ Hreq), Hstale.
  rewrite (GetBackend_present s req' fresh _ Hreq'), Hfresh, Hval.
  rewrite !getBackendURL_hashed by (unfold token; apply hash_no_delimiter).
  split.
  - rewrite find_all_false; [reflexivity|].
    intros c Hin. apply String.eqb_neq. intros Heq.
    apply (Hgone c Hin). now symmetry.
  - simpl. now rewrite String.eqb_refl.
Qed.

(** X5: adding backends at the end of the pool keeps an affinity: when
    GetBackend returns a backend on a pool, it gives the same answer on the
    pool followed by any further backends. *)
Theorem GetBackend_pool_extended (s : StickySession) (req : http.Request)
    (servers extra : list url.URL) (u : url.URL) :
  fst (fst (GetBackend s req servers)) = Some u ->
  GetBackend s req (servers ++ extra)%list = GetBackend s req servers /\
  GetBackend s req servers = (Some u, true, None).
Proof.
  unfold GetBackend.
  destruct (http.Request_Cookie req (cookieName s)) as [c|e];
    [|destruct e; discriminate].
  simpl. rewrite !getBackendURL_find. intros Hu.
  rewrite (find_app_Some _ _ extra _ Hu), Hu. split; reflexivity.
Qed.


(** X7: for a request that carries no legacy cookie value (no cookie, a
    failed lookup, or a value without "://"), resolution reads a pool
    through the scheme, host and path of its entries only.  On two pools
    whose entries agree on these position by position, whatever their
    user-info, query or fragment, GetBackend returns the same flag and
    error, and either no backend on both or the entries at one and the same
    index. *)
Theorem GetBackend_identity_only (s : StickySession) (req : http.Request)
    (servers servers' : list url.URL) :
  (forall cookie, http.Request_Cookie req (cookieName s) = inl cookie ->
                  strings.Contains (http.Value cookie) "://" = false) ->
  Forall2 same_identity servers servers' ->
  snd (GetBackend s req servers) = snd (GetBackend s req servers') /\
  snd (fst (GetBackend s req servers)) =
    snd (fst (GetBackend s req servers')) /\
  ((fst (fst (GetBackend s req servers)) = None /\
    fst (fst (GetBackend s req servers')) = None) \/
   (exists i r r',
      fst (fst (GetBackend s req servers)) = Some r /\
      fst (fst (GetBackend s req servers')) = Some r' /\
      nth_error servers i = Some r /\ nth_error servers' i = Some r' /\
      same_identity r r')).
Proof.
  intros Htoken Hall. unfold GetBackend.
  destruct (http.Request_Cookie req (cookieName s)) as [c|e].
  - simpl. rewrite !getBackendURL_hashed by (apply Htoken; reflexivity).
    destruct (find_Forall2 same_identity
                (fun u => String.eqb (http.Value c) (token u))
                (fun u => String.eqb (http.Value c) (token u))
                servers servers') as
      [[H1 H2]|(i & r & r' & H1 & H2 & H3 & H4 & H5)].
    + intros x y Hxy. now rewrite (token_identity x y Hxy).
    + exact Hall.
    + rewrite H1, H2. do 2 (split; [reflexivity|]). left.
      split; reflexivity.
    + rewrite H1, H2. do 2 (split; [reflexivity|]). right. exists i, r, r'.
      do 2 (split; [reflexivity|]). split; [exact H3|].
      split; [exact H4 | exact H5].
  - destruct e; simpl; do 2 (split; [reflexivity|]); left;
      split; reflexivity.
Qed.

(** X10: the cookie options play no part in resolution: sessions with the
    same cookie name, however constructed, give the same answer, and a
    cookie stuck by one is resolved by the other. *)
Theorem options_do_not_affect_resolution (name : string)
    (opt : CookieOptions) (req : http.Request) (servers : list url.URL) :
  GetBackend (NewStickySession name) req servers =
    GetBackend (NewStickySessionWithOptions name opt) req servers /\
  forall A w written carried,
    StickBackend (NewStickySessionWithOptions name opt) A w =
      (w ++ [written])%list ->
    http.Request_Cookie req name = inl carried ->
    http.Value carried = http.Value written ->
    GetBackend (NewStickySession name) req (A :: servers) =
      (Some A, true, None).
Proof.
  split; [reflexivity|].
  intros A w written carried Hw Hreq Hv.
  apply StickBackend_value in Hw. destruct Hw as [Hval _].
  rewrite (GetBackend_present (NewStickySession name) req carried _ Hreq).
  rewrite Hv, Hval.
  rewrite getBackendURL_hashed by (unfold token; apply hash_no_delimiter).
  simpl. now rewrite String.eqb_refl.
Qed.

(** X11: a cookie value that has no "://" and is not of the shape of a
    token (empty, longer than sixteen bytes, holding a byte outside 0-9a-f,
    or padded with a leading zero) matches no backend of any pool. *)
Theorem non_token_never_matches (s : StickySession) (req : http.Request)
    (cookie : http.Cookie) (servers : list url.URL) :
  http.Request_Cookie req (cookieName s) = inl cookie ->
  strings.Contains (http.Value cookie) "://" = false ->
  canonical_token (http.Value cookie) = false ->
  GetBackend s req servers = (None, false, None).
Proof.
  intros Hreq Hc Hshape.
  rewrite (GetBackend_present s req cookie servers Hreq).
  rewrite getBackendURL_hashed by assumption.
  rewrite find_all_false; [reflexivity|].
  intros c _. apply String.eqb_neq. intros Heq.
  rewrite Heq in Hshape. unfold token in Hshape.
  rewrite hash_canonical in Hshape. discriminate.
Qed.

End Resolution.

(** ** The further properties on Go's [net/url] *)

Lemma hashed_branch_first_token_match_witness :
  strings.Contains (roundrobin.hash "http://10.10.10.10/") "://" = false /\
  (forall r,
     roundrobin.getBackendURL sticky (roundrobin.hash "http://10.10.10.10/")
       [server_b; server_a_john; server_a] = Some r <->
     first_match (fun c => token c = roundrobin.hash "http://10.10.10.10/")
       [server_b; server_a_john; server_a] r).
Proof.
  split; [vm_compute; reflexivity|].
  apply (hashed_branch_first_token_match (pkg := GoURL) sticky
           (roundrobin.hash "http://10.10.10.10/")).
  vm_compute. reflexivity.
Defined.

Lemma GetBackend_match_sound_witness :
  fst (fst (roundrobin.GetBackend sticky
              (http.RequestWithCookies [legacy_cookie])
              [server_b; server_a])) = Some server_a /\
  exists cookie,
    http.Request_Cookie (http.RequestWithCookies [legacy_cookie])
      (roundrobin.cookieName sticky) = inl cookie /\
    ((strings.Contains (http.Value cookie) "://" = false /\
      http.Value cookie = token server_a) \/
     (strings.Contains (http.Value cookie) "://" = true /\
      exists needleURL,
        url.Parse (http.Value cookie) = inl needleURL /\
        same_identity needleURL server_a)).
Proof.
  split; [vm_compute; reflexivity|].
  apply (GetBackend_match_sound (pkg := GoURL) sticky
           (http.RequestWithCookies [legacy_cookie]) [server_b; server_a]
           server_a).
  vm_compute. reflexivity.
Defined.

Lemma stick_get_any_pool_witness :
  In server_a [server_b; server_a] /\
  roundrobin.GetBackend sticky
    (http.RequestWithCookies (roundrobin.StickBackend sticky server_a []))
    [server_b; server_a] = (Some server_a, true, None).
Proof.
  split; [simpl; auto|].
  refine (proj2 (stick_get_any_pool (pkg := GoURL) sticky server_a []
                   (http.mkCookie "sticky"
                      (roundrobin.hash "http://10.10.10.10/") "/" ""
                      time.zero "" 0 false false 0 "" [])
                   (http.mkCookie "sticky"
                      (roundrobin.hash "http://10.10.10.10/") "/" ""
                      time.zero "" 0 false false 0 "" [])
                   (http.RequestWithCookies
                      (roundrobin.StickBackend sticky server_a []))
                   [server_b; server_a] _ _ _ _)
                [server_b] [] eq_refl _).
  - vm_compute. reflexivity.
  - vm_compute. reflexivity.
  - reflexivity.
  - simpl. auto.
  - intros y [<-|[]]. vm_compute. discriminate.
Defined.

Lemma removed_backend_then_restick_witness :
  (forall c, In c [server_b] -> token c <> token server_a) /\
  roundrobin.GetBackend sticky
    (http.RequestWithCookies
       [cookie_of "sticky" (roundrobin.hash "http://10.10.10.10/")])
    [server_b] = (None, false, None) /\
  roundrobin.GetBackend sticky
    (http.RequestWithCookies (roundrobin.StickBackend sticky server_b []))
    [server_b] = (Some server_b, true, None).
Proof.
  assert (Hgone : forall c, In c [server_b] -> token c <> token server_a).
  { intros c [<-|[]]. vm_compute. discriminate. }
  split; [exact Hgone|].
  apply (removed_backend_then_restick (pkg := GoURL) sticky server_a
           server_b [] []
           (cookie_of "sticky" (roundrobin.hash "http://10.10.10.10/"))
           (http.mkCookie "sticky"
              (roundrobin.hash "https://10.10.10.42/") "/" ""
              time.zero "" 0 false false 0 "" [])
           (http.mkCookie "sticky"
              (roundrobin.hash "https://10.10.10.42/") "/" ""
              time.zero "" 0 false false 0 "" [])).
  - reflexivity.
  - vm_compute. reflexivity.
  - exact Hgone.
  - vm_compute. reflexivity.
  - vm_compute. reflexivity.
  - reflexivity.
Defined.

Lemma GetBackend_pool_extended_witness :
  fst (fst (roundrobin.GetBackend sticky
              (http.RequestWithCookies [legacy_cookie]) [server_a])) =
    Some server_a /\
  roundrobin.GetBackend sticky (http.RequestWithCookies [legacy_cookie])
    ([server_a] ++ [server_a_john; server_b])%list =
  roundrobin.GetBackend sticky (http.RequestWithCookies [legacy_cookie])
    [server_a].
Proof.
  split; [vm_compute; reflexivity|].
  apply (GetBackend_pool_extended (pkg := GoURL) sticky
           (http.RequestWithCookies [legacy_cookie]) [server_a]
           [server_a_john; server_b] server_a).
  vm_compute. reflexivity.
Defined.


Lemma GetBackend_identity_only_witness :
  (forall cookie,
     http.Request_Cookie
       (http.RequestWithCookies
          [cookie_of "sticky" (roundrobin.hash "http://10.10.10.10/")])
       (roundrobin.cookieName sticky) = inl cookie ->
     strings.Contains (http.Value cookie) "://" = false) /\
  Forall2 same_identity [server_b; server_a] [server_b; server_a_john] /\
  ((fst (fst (roundrobin.GetBackend sticky
                (http.RequestWithCookies
                   [cookie_of "sticky"
                      (roundrobin.hash "http://10.10.10.10/")])
                [server_b; server_a])) = None /\
    fst (fst (roundrobin.GetBackend sticky
                (http.RequestWithCookies
                   [cookie_of "sticky"
                      (roundrobin.hash "http://10.10.10.10/")])
                [server_b; server_a_john])) = None) \/
   (exists i r r',
      fst (fst (roundrobin.GetBackend sticky
                  (http.RequestWithCookies
                     [cookie_of "sticky"
                        (roundrobin.hash "http://10.10.10.10/")])
                  [server_b; server_a])) = Some r /\
      fst (fst (roundrobin.GetBackend sticky
                  (http.RequestWithCookies
                     [cookie_of "sticky"
                        (roundrobin.hash "http://10.10.10.10/")])
                  [server_b; server_a_john])) = Some r' /\
      nth_error [server_b; server_a] i = Some r /\
      nth_error [server_b; server_a_john] i = Some r' /\
      same_identity r r')).
Proof.
  assert (Htoken : forall cookie,
            http.Request_Cookie
              (http.RequestWithCookies
                 [cookie_of "sticky"
                    (roundrobin.hash "http://10.10.10.10/")])
              (roundrobin.cookieName sticky) = inl cookie ->
            strings.Contains (http.Value cookie) "://" = false).
  { intros cookie Hc. vm_compute in Hc. inversion Hc. reflexivity. }
  assert (Hall : Forall2 same_identity [server_b; server_a]
                   [server_b; server_a_john]).
  { repeat constructor. }
  split; [exact Htoken|]. split; [exact Hall|].
  exact (proj2 (proj2 (GetBackend_identity_only (pkg := GoURL) sticky
                         (http.RequestWithCookies
                            [cookie_of "sticky"
                               (roundrobin.hash "http://10.10.10.10/")])
                         [server_b; server_a] [server_b; server_a_john]
                         Htoken Hall))).
Defined.

Lemma non_token_never_matches_witness :
  strings.Contains (http.Value bad_cookie) "://" = false /\
  canonical_token (http.Value bad_cookie) = false /\
  roundrobin.GetBackend sticky (http.RequestWithCookies [bad_cookie])
    [server_a; server_b] = (None, false, None).
Proof.
  split; [reflexivity|]. split; [reflexivity|].
  apply (non_token_never_matches (pkg := GoURL) sticky
           (http.RequestWithCookies [bad_cookie]) bad_cookie);
    reflexivity.
Defined.

(** ** Stamping again, and the two cookie formats side by side *)

Lemma find_ext_in {A : Type} (f g : A -> bool) (l : list A) :
  (forall x, In x l -> f x = g x) -> find f l = find g l.
Proof.
  induction l as [|x l IH]; simpl; intros Hfg; [reflexivity|].
  rewrite <- (Hfg x) by auto. destruct (f x); [reflexivity|].
  apply IH. intros y Hy. apply Hfg. auto.
Qed.

Section Formats.
Context {pkg : url.Package}.

Import roundrobin.

(** X12: stamping depends on the backend through its scheme, host and path
    only and leaves earlier cookies in place: for two addresses that agree
    on these, StickBackend appends one and the same cookie to whatever was
    written before, and stamping twice appends that cookie twice. *)
Theorem StickBackend_again (s : StickySession) (A A' : url.URL)
    (w w' : http.ResponseWriter) :
  same_identity A A' ->
  exists c,
    StickBackend s A w = (w ++ [c])%list /\
    StickBackend s A' w' = (w' ++ [c])%list /\
    StickBackend s A' (StickBackend s A w) = (w ++ [c; c])%list.
Proof.
  intros (Hs & Hh & Hp). eexists. split; [apply StickBackend_appends|].
  assert (Ht : token A' = token A).
  { unfold token, getCleanServerURL. now rewrite Hs, Hh, Hp. }
  split.
  - rewrite StickBackend_appends. now rewrite Ht.
  - rewrite !StickBackend_appends, Ht, <- app_assoc. reflexivity.
Qed.

(** X13: the two cookie formats agree.  When a legacy cookie value parses
    to an address without user-info, and no backend of the pool with other
    scheme, host or path shares that address's token, the legacy value and
    the token of that address resolve to the same backend of the pool, or
    both to none. *)
Theorem legacy_and_token_agree (s : StickySession) (needle : string)
    (needleURL : url.URL) (haystack : list url.URL) :
  strings.Contains needle "://" = true ->
  url.Parse needle = inl needleURL ->
  url.User needleURL = None ->
  (forall c, In c haystack -> token c = token needleURL ->
             same_identity needleURL c) ->
  getBackendURL s needle haystack =
  getBackendURL s (token needleURL) haystack.
Proof.
  intros Hc Hp Hu Hinj.
  rewrite (getBackendURL_legacy s _ _ _ Hc Hp).
  rewrite getBackendURL_hashed by (unfold token; apply hash_no_delimiter).
  apply find_ext_in. intros c Hin.
  destruct (sameURL needleURL c) eqn:Hsame.
  - apply (sameURL_without_userinfo _ _ Hu) in Hsame.
    symmetry. apply String.eqb_eq. now apply token_identity.
  - symmetry. apply String.eqb_neq. intros Ht.
    assert (Hid : same_identity needleURL c) by (apply Hinj; auto).
    apply (sameURL_without_userinfo _ _ Hu) in Hid. congruence.
Qed.

End Formats.

Lemma StickBackend_again_witness :
  same_identity server_a server_a_john /\
  exists c,
    roundrobin.StickBackend sticky server_a [] = ([] ++ [c])%list /\
    roundrobin.StickBackend sticky server_a_john [bad_cookie] =
      ([bad_cookie] ++ [c])%list /\
    roundrobin.StickBackend sticky server_a_john
      (roundrobin.StickBackend sticky server_a []) = ([] ++ [c; c])%list.
Proof.
  assert (Hid : same_identity server_a server_a_john) by (repeat split).
  split; [exact Hid|].
  exact (StickBackend_again (pkg := GoURL) sticky server_a server_a_john
           [] [bad_cookie] Hid).
Defined.

Lemma legacy_and_token_agree_witness :
  strings.Contains "http://10.10.10.10/" "://" = true /\
  url.Parse "http://10.10.10.10/" = inl server_a /\
  url.User server_a = None /\
  roundrobin.getBackendURL sticky "http://10.10.10.10/"
    [server_b; server_a_john] =
  roundrobin.getBackendURL sticky (token server_a) [server_b; server_a_john].
Proof.
  split; [reflexivity|]. split; [vm_compute; reflexivity|].
  split; [reflexivity|].
  apply (legacy_and_token_agree (pkg := GoURL) sticky
           "http://10.10.10.10/" server_a [server_b; server_a_john]).
  - reflexivity.
  - vm_compute. reflexivity.
  - reflexivity.
  - intros c [<-|[<-|[]]] Ht.
    + vm_compute in Ht. discriminate.
    + repeat split.
Defined.
